(** * Pi-hole web interface: login page and shared context providers

    A shallow embedding of the login component ([views/Login], a React class
    component) and of the context providers of
    [src/components/common/context.tsx], with the properties of the
    authentication flow and of the published context values. *)

From Stdlib Require Import ZArith List String Ascii Bool Arith Lia.
Import ListNotations.

(** ** SHA-256 as computed by [sha("sha256").update(s).digest("hex")]

    The login page hashes with the [sha.js] package.  The digest is the
    standard FIPS 180-4 one; a string stands for the sequence of its bytes
    (the UTF-8 encoding that [update] applies to a string argument), and the
    digest is printed as 64 lowercase hexadecimal digits. *)
Module SHA256.
Local Open Scope Z_scope.

(** 32-bit words are integers in [0, 2^32) with the wrap-around explicit. *)
Definition modulus : Z := 2 ^ 32.
Definition wrap (x : Z) : Z := x mod modulus.
Definition plus32 (x y : Z) : Z := wrap (x + y).
Definition not32 (x : Z) : Z := Z.lxor x (modulus - 1).
Definition rotr (n x : Z) : Z :=
  Z.lor (Z.shiftr x n) (wrap (Z.shiftl x (32 - n))).

Definition choose (e f g : Z) : Z := Z.lxor (Z.land e f) (Z.land (not32 e) g).
Definition majority (a b c : Z) : Z :=
  Z.lxor (Z.lxor (Z.land a b) (Z.land a c)) (Z.land b c).
Definition big_sigma0 (x : Z) : Z :=
  Z.lxor (Z.lxor (rotr 2 x) (rotr 13 x)) (rotr 22 x).
Definition big_sigma1 (x : Z) : Z :=
  Z.lxor (Z.lxor (rotr 6 x) (rotr 11 x)) (rotr 25 x).
Definition small_sigma0 (x : Z) : Z :=
  Z.lxor (Z.lxor (rotr 7 x) (rotr 18 x)) (Z.shiftr x 3).
Definition small_sigma1 (x : Z) : Z :=
  Z.lxor (Z.lxor (rotr 17 x) (rotr 19 x)) (Z.shiftr x 10).

(** The round constants and the initial hash value are the leading 32
    fractional bits of the cube roots, respectively square roots, of the
    first primes; they are computed here rather than tabulated. *)
Definition is_prime (n : nat) : bool :=
  (1 <? n)%nat &&
  forallb (fun d => negb (Nat.eqb (n mod d) 0)) (seq 2 (n - 2)).

Definition first_primes (count : nat) : list Z :=
  map Z.of_nat (firstn count (filter is_prime (seq 2 320))).

(** Largest [r] below [2 ^ bits] with [r ^ 3 <= n], one bit at a time. *)
Fixpoint cube_root_bits (bits : nat) (n r : Z) : Z :=
  match bits with
  | O => r
  | S b =>
    let candidate := r + 2 ^ Z.of_nat b in
    cube_root_bits b n (if candidate ^ 3 <=? n then candidate else r)
  end.

Definition round_constants : list Z :=
  Eval vm_compute in
    map (fun p => wrap (cube_root_bits 40 (p * 2 ^ 96) 0)) (first_primes 64).

Definition initial_hash : list Z :=
  Eval vm_compute in
    map (fun p => wrap (Z.sqrt (p * 2 ^ 64))) (first_primes 8).

(** Message padding: a [0x80] byte, zero bytes up to 56 modulo 64, and the
    bit length as a 64-bit big-endian integer. *)
Definition bytes_of_string (s : string) : list Z :=
  map (fun c => Z.of_nat (nat_of_ascii c)) (list_ascii_of_string s).

Definition big_endian (width : nat) (x : Z) : list Z :=
  map (fun i => Z.land (Z.shiftr x (8 * Z.of_nat i)) 255) (rev (seq 0 width)).

Definition pad (msg : list Z) : list Z :=
  let len := Z.of_nat (List.length msg) in
  msg ++ [128] ++ repeat 0 (Z.to_nat ((55 - len) mod 64))
      ++ big_endian 8 (8 * len).

Definition word_of_bytes (bs : list Z) : Z :=
  fold_left (fun acc b => acc * 256 + b) bs 0.

Fixpoint words_of_bytes (fuel : nat) (bs : list Z) : list Z :=
  match fuel, bs with
  | S k, _ :: _ => word_of_bytes (firstn 4 bs) :: words_of_bytes k (skipn 4 bs)
  | _, _ => []
  end.

(** The message schedule, kept newest word first while it is extended. *)
Fixpoint extend_schedule (rounds : nat) (w : list Z) : list Z :=
  match rounds with
  | O => w
  | S k =>
    let next :=
      plus32 (plus32 (small_sigma1 (nth 1 w 0)) (nth 6 w 0))
             (plus32 (small_sigma0 (nth 14 w 0)) (nth 15 w 0)) in
    extend_schedule k (next :: w)
  end.

Definition schedule (block : list Z) : list Z :=
  rev (extend_schedule 48 (rev block)).

Record registers : Type :=
  mkRegisters { ra : Z; rb : Z; rc : Z; rd : Z; re : Z; rf : Z; rg : Z; rh : Z }.

Definition round (r : registers) (kw : Z * Z) : registers :=
  let t1 :=
    plus32 (plus32 (plus32 (rh r) (big_sigma1 (re r)))
                   (plus32 (choose (re r) (rf r) (rg r)) (fst kw)))
           (snd kw) in
  let t2 := plus32 (big_sigma0 (ra r)) (majority (ra r) (rb r) (rc r)) in
  mkRegisters (plus32 t1 t2) (ra r) (rb r) (rc r)
            (plus32 (rd r) t1) (re r) (rf r) (rg r).

Definition add_registers (x y : registers) : registers :=
  mkRegisters (plus32 (ra x) (ra y)) (plus32 (rb x) (rb y))
            (plus32 (rc x) (rc y)) (plus32 (rd x) (rd y))
            (plus32 (re x) (re y)) (plus32 (rf x) (rf y))
            (plus32 (rg x) (rg y)) (plus32 (rh x) (rh y)).

Definition compress (h : registers) (block : list Z) : registers :=
  add_registers h
    (fold_left round (combine round_constants (schedule block)) h).

Fixpoint blocks (fuel : nat) (ws : list Z) : list (list Z) :=
  match fuel, ws with
  | S k, _ :: _ => firstn 16 ws :: blocks k (skipn 16 ws)
  | _, _ => []
  end.

Definition start : registers :=
  mkRegisters (nth 0 initial_hash 0) (nth 1 initial_hash 0)
            (nth 2 initial_hash 0) (nth 3 initial_hash 0)
            (nth 4 initial_hash 0) (nth 5 initial_hash 0)
            (nth 6 initial_hash 0) (nth 7 initial_hash 0).

Definition digest (msg : list Z) : registers :=
  let padded := pad msg in
  let ws := words_of_bytes (List.length padded) padded in
  fold_left compress (blocks (List.length ws) ws) start.

(** [digest("hex")]: lowercase hexadecimal, most significant nibble first. *)
Definition hex_digit (n : Z) : ascii :=
  nth (Z.to_nat (Z.land n 15)) (list_ascii_of_string "0123456789abcdef")
      "0"%char.

Definition hex_of_word (x : Z) : string :=
  String (hex_digit (Z.shiftr x 28)) (String (hex_digit (Z.shiftr x 24))
  (String (hex_digit (Z.shiftr x 20)) (String (hex_digit (Z.shiftr x 16))
  (String (hex_digit (Z.shiftr x 12)) (String (hex_digit (Z.shiftr x 8))
  (String (hex_digit (Z.shiftr x 4)) (String (hex_digit x) EmptyString))))))).

Definition hex_of_registers (r : registers) : string :=
  (hex_of_word (ra r) ++ hex_of_word (rb r) ++ hex_of_word (rc r)
   ++ hex_of_word (rd r) ++ hex_of_word (re r) ++ hex_of_word (rf r)
   ++ hex_of_word (rg r) ++ hex_of_word (rh r))%string.

Definition hexdigest (s : string) : string :=
  hex_of_registers (digest (bytes_of_string s)).

End SHA256.

(** ** The login page ([Login], a React class component) *)
Module Login.
Local Open Scope string_scope.

(** [LoginState], the component's [this.state]. *)
Record LoginState : Type := mkLoginState
  { username : string;
    password : string;
    error : bool;
    cookiesEnabled : bool;
    ldapAuth : bool }.

(** The class field initialiser [state = {...}]. *)
Definition initial_state : LoginState :=
  mkLoginState EmptyString EmptyString false false false.

(** One [key: value] entry of the object handed to [this.setState]; React
    merges the entries into the current state and keeps the other keys. *)
Inductive entry : Type :=
| Username (v : string)
| Password (v : string)
| Error (v : bool)
| CookiesEnabled (v : bool)
| LdapAuth (v : bool).

Definition assign (s : LoginState) (e : entry) : LoginState :=
  match e with
  | Username v =>
    mkLoginState v (password s) (error s) (cookiesEnabled s) (ldapAuth s)
  | Password v =>
    mkLoginState (username s) v (error s) (cookiesEnabled s) (ldapAuth s)
  | Error v =>
    mkLoginState (username s) (password s) v (cookiesEnabled s) (ldapAuth s)
  | CookiesEnabled v =>
    mkLoginState (username s) (password s) (error s) v (ldapAuth s)
  | LdapAuth v =>
    mkLoginState (username s) (password s) (error s) (cookiesEnabled s) v
  end.

Definition merge (partial : list entry) (s : LoginState) : LoginState :=
  fold_left assign partial s.

(** [props.location.state], of type [{ from: Location }] when present. *)
Record Location : Type := mkLocation { pathname : string }.
Record LocationState : Type := mkLocationState { from : Location }.

(** What the component reads from outside itself and never writes:
    [props.location.state], [config.fakeAPI] and the object [routes(t)],
    given by its own properties (a path and the title of its page, each
    path once; the modules [config] and [routes] are imported, so their
    values are taken as given). *)
Record Env : Type := mkEnv
  { location_state : option LocationState;
    fakeAPI : bool;
    routes : list (string * string) }.

(** Modelled from the spec: the module [util/api] is imported and its source
    is not part of the component.  Following the external interfaces of the
    specification, each of [api.checkAuthMode()], [api.authenticate(hash)]
    and [api.authenticateLdap(username, password)] sends one request to the
    backend, carrying exactly its arguments, and returns a promise that
    settles later. *)
Inductive request : Type :=
| CheckAuthMode
| Authenticate (hashedPassword : string)
| AuthenticateLdap (username password : string).

(** Everything the component can change: its own state, the session flag
    [api.loggedIn], the requests sent so far (oldest first), the promises
    that have not settled yet, the paths given to [history.push] (oldest
    first) and the assignments to [document.cookie]. *)
Record World : Type := mkWorld
  { state : LoginState;
    loggedIn : bool;
    sent : list request;
    probes_pending : nat;
    logins_pending : nat;
    pushed : list string;
    cookie_writes : list string }.

Definition initial_world (logged_in : bool) : World :=
  mkWorld initial_state logged_in [] 0 0 [] [].

(** A small state monad over [World] for the component's methods. *)
Definition M (A : Type) : Type := World -> A * World.

Definition ret {A : Type} (a : A) : M A := fun w => (a, w).

Definition bind {A B : Type} (m : M A) (k : A -> M B) : M B :=
  fun w => let (a, w') := m w in k a w'.

Notation "x <- m ;; k" := (bind m (fun x => k))
  (at level 61, m at next level, right associativity).
Notation "m ;; k" := (bind m (fun _ => k))
  (at level 61, right associativity).

Definition exec {A : Type} (m : M A) (w : World) : World := snd (m w).

Definition when (b : bool) (m : M unit) : M unit :=
  if b then m else ret tt.

Definition this_state : M LoginState := fun w => (state w, w).

Definition setState (partial : list entry) : M unit :=
  fun w =>
    (tt, mkWorld (merge partial (state w)) (loggedIn w) (sent w)
                 (probes_pending w) (logins_pending w) (pushed w)
                 (cookie_writes w)).

(** Modelled from the spec: [api.checkAuthMode()] sends the probe and
    leaves its promise pending. *)
Definition api_checkAuthMode : M unit :=
  fun w =>
    (tt, mkWorld (state w) (loggedIn w) (sent w ++ [CheckAuthMode])
                 (S (probes_pending w)) (logins_pending w) (pushed w)
                 (cookie_writes w)).

(** Modelled from the spec: [api.authenticate] and [api.authenticateLdap]
    send their request and leave its promise pending. *)
Definition send_login (r : request) : M unit :=
  fun w =>
    (tt, mkWorld (state w) (loggedIn w) (sent w ++ [r])
                 (probes_pending w) (S (logins_pending w)) (pushed w)
                 (cookie_writes w)).

Definition api_authenticate (hashedPassword : string) : M unit :=
  send_login (Authenticate hashedPassword).

Definition api_authenticateLdap (username password : string) : M unit :=
  send_login (AuthenticateLdap username password).

Definition api_set_loggedIn (v : bool) : M unit :=
  fun w =>
    (tt, mkWorld (state w) v (sent w) (probes_pending w) (logins_pending w)
                 (pushed w) (cookie_writes w)).

Definition history_push (path : string) : M unit :=
  fun w =>
    (tt, mkWorld (state w) (loggedIn w) (sent w) (probes_pending w)
                 (logins_pending w) (pushed w ++ [path]) (cookie_writes w)).

Definition set_document_cookie (v : string) : M unit :=
  fun w =>
    (tt, mkWorld (state w) (loggedIn w) (sent w) (probes_pending w)
                 (logins_pending w) (pushed w) (cookie_writes w ++ [v])).

Definition pending_probes : M nat := fun w => (probes_pending w, w).

Definition pending_logins : M nat := fun w => (logins_pending w, w).

Definition probe_settles : M unit :=
  fun w =>
    (tt, mkWorld (state w) (loggedIn w) (sent w) (pred (probes_pending w))
                 (logins_pending w) (pushed w) (cookie_writes w)).

Definition login_settles : M unit :=
  fun w =>
    (tt, mkWorld (state w) (loggedIn w) (sent w) (probes_pending w)
                 (pred (logins_pending w)) (pushed w) (cookie_writes w)).

(** [componentWillMount]: sample [navigator.cookieEnabled], then probe the
    authentication mode. *)
Definition componentWillMount (navigator_cookieEnabled : bool) : M unit :=
  when navigator_cookieEnabled (setState [CookiesEnabled true]) ;;
  api_checkAuthMode.

(** The [then] callback of the probe: [auth => setState({ ldapAuth:
    auth.mode === "ldap" })].  The probe has no [catch]: a rejected probe
    changes nothing. *)
Definition checkAuthMode_then (mode : string) : M unit :=
  setState [LdapAuth (mode =? "ldap")].

Definition handlePasswordChange (value : string) : M unit :=
  setState [Password value].

Definition handleUsernameChange (value : string) : M unit :=
  setState [Username value].

Section Hashing.

(** [s => sha("sha256").update(s).digest("hex")] of the [sha.js] package;
    [SHA256.hexdigest] is the function to put here. *)
Variable sha256_hex : string -> string.

(** [authenticate], up to and including [setState]; the two callbacks that
    it attaches to the promise follow. *)
Definition authenticate : M unit :=
  s <- this_state ;;
  (if ldapAuth s then
     let username := username s in
     let password := password s in
     api_authenticateLdap username password
   else
     let hashedPassword := sha256_hex (password s) in
     let hashedPassword := sha256_hex hashedPassword in
     api_authenticate hashedPassword) ;;
  setState [Password EmptyString; Error false].

(** [.then(() => { api.loggedIn = true; ...; history.push(...) })] *)
Definition authenticate_then (env : Env) : M unit :=
  api_set_loggedIn true ;;
  when (fakeAPI env) (set_document_cookie "user_id=;") ;;
  let locationState :=
    match location_state env with
    | Some st => st
    | None => mkLocationState (mkLocation "/")
    end in
  history_push (pathname (from locationState)).

(** [.catch(() => this.setState({ error: true }))].  It is chained after
    [then], so it would also run if the callback above threw; with props of
    the declared type that callback does not throw. *)
Definition authenticate_catch : M unit :=
  setState [Error true].

(** What happens to a mounted login page: the operator types or submits,
    and pending promises settle.  A promise can only settle while it is
    pending; otherwise the event cannot occur and changes nothing. *)
Inductive event : Type :=
| PasswordChange (value : string)
| UsernameChange (value : string)
| Submit
| AuthModeResolved (mode : string)
| AuthModeRejected
| AuthResolved
| AuthRejected.

Definition handle (env : Env) (e : event) : M unit :=
  match e with
  | PasswordChange v => handlePasswordChange v
  | UsernameChange v => handleUsernameChange v
  | Submit => authenticate
  | AuthModeResolved mode =>
    pending <- pending_probes ;;
    when (0 <? pending)%nat (probe_settles ;; checkAuthMode_then mode)
  | AuthModeRejected =>
    pending <- pending_probes ;;
    when (0 <? pending)%nat probe_settles
  | AuthResolved =>
    pending <- pending_logins ;;
    when (0 <? pending)%nat (login_settles ;; authenticate_then env)
  | AuthRejected =>
    pending <- pending_logins ;;
    when (0 <? pending)%nat (login_settles ;; authenticate_catch)
  end.

Definition step (env : Env) (w : World) (e : event) : World :=
  exec (handle env e) w.

Definition run (env : Env) (events : list event) (w : World) : World :=
  fold_left (step env) events w.

(** The request that a submission sends from a given component state. *)
Definition submitted_request (s : LoginState) : request :=
  if ldapAuth s then AuthenticateLdap (username s) (password s)
  else Authenticate (sha256_hex (sha256_hex (password s))).

End Hashing.




(** A world with the sampled cookie signal blanked out, to compare runs
    that differ in it only. *)
Definition without_cookie_signal (w : World) : World :=
  mkWorld (assign (state w) (CookiesEnabled false)) (loggedIn w) (sent w)
          (probes_pending w) (logins_pending w) (pushed w) (cookie_writes w).

(** What [render] returns: the redirect, or the form with the parts of it
    that depend on state and props. *)
Inductive property : Type :=
| Own (value : string)
  (** the value of an own property of [routes(t)], a page title *)
| Inherited (name : string)
  (** the member of [Object.prototype] of that name *).

Record Form : Type := mkForm
  { transfer_notice : option property;
    cookie_warning : bool;
    wrong_password : bool;
    username_input : option string;
    password_input : string }.

Inductive element : Type :=
| Redirect (to : string)
| LoginForm (form : Form).

(** The own property [key] of an object given by its own properties. *)
Fixpoint lookup (key : string) (table : list (string * string))
  : option string :=
  match table with
  | [] => None
  | (k, v) :: rest => if k =? key then Some v else lookup key rest
  end.

(** [routes(t)] is an ordinary object, so the names below are properties of
    it as well: it inherits them from [Object.prototype]. *)
Definition Object_prototype : list string :=
  ["constructor"; "hasOwnProperty"; "isPrototypeOf"; "propertyIsEnumerable";
   "toLocaleString"; "toString"; "valueOf"; "__proto__";
   "__defineGetter__"; "__defineSetter__"; "__lookupGetter__";
   "__lookupSetter__"].

Definition inherits (key : string) : bool :=
  existsb (String.eqb key) Object_prototype.

(** [key in object]: true of own and of inherited properties. *)
Definition has_property (key : string) (table : list (string * string))
  : bool :=
  match lookup key table with
  | Some _ => true
  | None => inherits key
  end.

(** [object[key]]: the own property first, then the inherited one. *)
Definition get_property (key : string) (table : list (string * string))
  : option property :=
  match lookup key table with
  | Some value => Some (Own value)
  | None => if inherits key then Some (Inherited key) else None
  end.

Definition render (env : Env) (w : World) : element :=
  if loggedIn w then Redirect "/"
  else
    LoginForm
      (mkForm
         match location_state env with
         | Some st =>
           if has_property (pathname (from st)) (routes env)
           then get_property (pathname (from st)) (routes env)
           else None
         | None => None
         end
         (negb (cookiesEnabled (state w)))
         (error (state w))
         (if ldapAuth (state w) then Some (username (state w)) else None)
         (password (state w))).

(** Mounting: [componentWillMount] runs on the fresh component, then the
    first [render]. *)
Definition mount (navigator_cookieEnabled : bool) (w : World) : World :=
  exec (componentWillMount navigator_cookieEnabled) w.

(** The path that the [then] callback of [authenticate] hands to
    [history.push]: [(location.state || { from: { pathname: "/" }
    }).from.pathname]. *)
Definition destination (env : Env) : string :=
  match location_state env with
  | Some st => pathname (from st)
  | None => "/"
  end.

(** Sorting events: a submission; a keystroke in one of the two fields; a
    probe answered with the mode ["ldap"]. *)
Definition is_submit (e : event) : bool :=
  match e with
  | Submit => true
  | _ => false
  end.

Definition is_typing (e : event) : bool :=
  match e with
  | PasswordChange _ | UsernameChange _ => true
  | _ => false
  end.

Definition answers_ldap (e : event) : bool :=
  match e with
  | AuthModeResolved mode => mode =? "ldap"
  | _ => false
  end.

(** Pending authentication requests and successful attempts along a list
    of events, from the number of requests pending at its start: a
    submission adds a pending request, an outcome takes one away, and an
    attempt succeeds when [AuthResolved] meets a pending request. *)
Definition pending_after (pending : nat) (e : event) : nat :=
  match e with
  | Submit => S pending
  | AuthResolved | AuthRejected => pred pending
  | _ => pending
  end.

Definition succeeds (pending : nat) (e : event) : bool :=
  match e with
  | AuthResolved => (0 <? pending)%nat
  | _ => false
  end.

Fixpoint successes (pending : nat) (events : list event) : nat :=
  match events with
  | [] => 0
  | e :: rest =>
    (if succeeds pending e then 1 else 0)
    + successes (pending_after pending e) rest
  end.

(** The number of times the form is submitted in a list of events. *)
Definition submissions (events : list event) : nat :=
  List.length (filter is_submit events).

(** The one request that carries the password as typed. *)
Definition carries_raw_password (r : request) : bool :=
  match r with
  | AuthenticateLdap _ _ => true
  | _ => false
  end.

End Login.

(** ** Callbacks that travel inside context values

    A context value carries a [refresh] function.  Three functions can end up
    there; each is named after the expression that creates it, and two
    callbacks are the same function object exactly when they are the same
    constructor. *)
Inductive callback : Type :=
| initialStatus_refresh
  (** [() => {}] in the object literal [initialStatus] *)
| initialPreferences_refresh
  (** [() => {}] in the object literal [initialPreferences] *)
| loader_refresh
  (** the [refresh] that the data loader hands to [renderOk] and
      [renderErr] *).

(** ** The data loader [WithAPIData] *)
Module WithAPIData.

(** [repeatOptions={{ interval: 5000, ignoreCancel: true }}] *)
Record RepeatOptions : Type := mkRepeatOptions
  { interval : nat;
    ignoreCancel : bool }.

Section Loader.

Variables T E : Type.

(** Whether an error says that its fetch was cancelled or superseded. *)
Variable is_cancel : E -> bool.

(** Modelled from the spec: the tri-state result of the data loader
    ([AsyncResourceState] in the specification): no data yet, a value, or an
    error, the last two together with the loader's [refresh]. *)
Inductive AsyncResourceState : Type :=
| Initial
| Ok (value : T) (refresh : callback)
| Err (error : E) (refresh : callback).

(** Modelled from the spec: the component [WithAPIData] is imported by
    [context.tsx] and its source is not part of it.  Following section 4.1
    of the specification, a loader keeps one tri-state result, a generation
    counter, the generation tokens of the fetches that have not settled, a
    flag for a scheduled poll timer, its poll configuration and whether it
    has been torn down.  [fetches] counts the fetches issued and [presented]
    lists the results handed to the presentation callbacks, oldest first. *)
Record loader : Type := mkLoader
  { current : AsyncResourceState;
    generation : nat;
    in_flight : list nat;
    timer : bool;
    repeatOptions : option RepeatOptions;
    unmounted : bool;
    fetches : nat;
    presented : list AsyncResourceState }.

(** Modelled from the spec: a fetch carries the generation current when it
    is issued. *)
Definition issue (r : loader) : loader :=
  mkLoader (current r) (generation r) (generation r :: in_flight r) (timer r)
           (repeatOptions r) (unmounted r) (S (fetches r)) (presented r).

(** Modelled from the spec: on creation the result is [Initial] and a fetch
    is issued immediately. *)
Definition create (options : option RepeatOptions) : loader :=
  issue (mkLoader Initial 0 [] false options false 0 [Initial]).

(** Modelled from the spec: [refresh()] cancels any pending timer, discards
    the result of any fetch in flight (by moving to the next generation)
    and issues a new fetch immediately. *)
Definition refresh (r : loader) : loader :=
  issue (mkLoader (current r) (S (generation r)) (in_flight r) false
                  (repeatOptions r) (unmounted r) (fetches r) (presented r)).

(** Modelled from the spec: a loader given a different [apiCall] moves to
    the next generation, so that the fetch in flight is ignored, and
    fetches with the new function. *)
Definition reconfigure (r : loader) : loader := refresh r.

(** Modelled from the spec: teardown increments the generation one final
    time and clears the timer. *)
Definition unmount (r : loader) : loader :=
  mkLoader (current r) (S (generation r)) (in_flight r) false
           (repeatOptions r) true (fetches r) (presented r).

(** Modelled from the spec: a fetch that settles is no longer in flight. *)
Fixpoint remove_first (token : nat) (tokens : list nat) : list nat :=
  match tokens with
  | [] => []
  | t :: rest => if Nat.eqb t token then rest else t :: remove_first token rest
  end.

Definition settled (token : nat) (r : loader) : loader :=
  mkLoader (current r) (generation r) (remove_first token (in_flight r))
           (timer r) (repeatOptions r) (unmounted r) (fetches r) (presented r).

(** Modelled from the spec: the result that a settled fetch leads to.  A
    value gives [Ok]; an error gives [Err], unless cancel errors are ignored
    and the error is one: then the previous result is retained ([None]). *)
Definition result_of (r : loader) (outcome : T + E)
  : option AsyncResourceState :=
  match outcome with
  | inl value => Some (Ok value loader_refresh)
  | inr error =>
    match repeatOptions r with
    | Some options =>
      if ignoreCancel options && is_cancel error then None
      else Some (Err error loader_refresh)
    | None => Some (Err error loader_refresh)
    end
  end.

(** Modelled from the spec: a transition is delivered to the presentation
    callback, and with a poll interval the next fetch is scheduled once the
    previous one has settled. *)
Definition apply (outcome : T + E) (r : loader) : loader :=
  let polling :=
    match repeatOptions r with Some _ => true | None => false end in
  match result_of r outcome with
  | Some next =>
    mkLoader next (generation r) (in_flight r) polling (repeatOptions r)
             (unmounted r) (fetches r) (presented r ++ [next])
  | None =>
    mkLoader (current r) (generation r) (in_flight r) polling
             (repeatOptions r) (unmounted r) (fetches r) (presented r)
  end.

(** Modelled from the spec: only the result whose token matches the current
    generation is applied; any other result is dropped.  Nothing is applied
    after teardown. *)
Definition settle (token : nat) (outcome : T + E) (r : loader) : loader :=
  if existsb (Nat.eqb token) (in_flight r) then
    if Nat.eqb token (generation r) && negb (unmounted r)
    then apply outcome (settled token r)
    else settled token r
  else r.

(** Modelled from the spec: when the poll timer fires, the next fetch is
    issued. *)
Definition tick (r : loader) : loader :=
  if timer r then
    issue (mkLoader (current r) (generation r) (in_flight r) false
                    (repeatOptions r) (unmounted r) (fetches r) (presented r))
  else r.

(** Modelled from the spec: what can happen to a loader after its
    creation.  A consumer calls [refresh], the owner passes another
    [apiCall], the poll timer fires, a fetch settles with a value or with an
    error, the owner unmounts the loader. *)
Inductive event : Type :=
| Refresh
| Reconfigure
| Tick
| Settle (token : nat) (outcome : T + E)
| Unmount.

Definition step (r : loader) (e : event) : loader :=
  match e with
  | Refresh => refresh r
  | Reconfigure => reconfigure r
  | Tick => tick r
  | Settle token outcome => settle token outcome r
  | Unmount => unmount r
  end.

Definition run (events : list event) (r : loader) : loader :=
  fold_left step events r.

(** Calling a callback without argument, as a consumer of the context
    does.  The two placeholders have an empty body; the loader's callback
    is [refresh] above. *)
Definition invoke (c : callback) (r : loader) : loader :=
  match c with
  | initialStatus_refresh => r
  | initialPreferences_refresh => r
  | loader_refresh => refresh r
  end.

(** Modelled from the spec: the loader presents its result through the
    callback that matches the variant. *)
Definition render {V : Type} (renderInitial : unit -> V)
    (renderOk : T -> callback -> V) (renderErr : E -> callback -> V)
    (s : AsyncResourceState) : V :=
  match s with
  | Initial => renderInitial tt
  | Ok data refresh => renderOk data refresh
  | Err error refresh => renderErr error refresh
  end.

(** The [refresh] that a result carries, if it carries one. *)
Definition carried_refresh (s : AsyncResourceState) : option callback :=
  match s with
  | Initial => None
  | Ok _ refresh => Some refresh
  | Err _ refresh => Some refresh
  end.

(** What holds of a loader however it got where it is: no fetch in flight
    carries a token from the future, and a result that carries a [refresh]
    carries the loader's own. *)
Definition well_formed (r : loader) : Prop :=
  (forall t, In t (in_flight r) -> t <= generation r)
  /\ (forall c, carried_refresh (current r) = Some c -> c = loader_refresh).

End Loader.

Arguments Initial {T E}.
Arguments Ok {T E} value refresh.
Arguments Err {T E} error refresh.
Arguments current {T E} _.
Arguments generation {T E} _.
Arguments in_flight {T E} _.
Arguments timer {T E} _.
Arguments repeatOptions {T E} _.
Arguments unmounted {T E} _.
Arguments fetches {T E} _.
Arguments presented {T E} _.
Arguments issue {T E} r.
Arguments create {T E} options.
Arguments refresh {T E} r.
Arguments reconfigure {T E} r.
Arguments unmount {T E} r.
Arguments settled {T E} token r.
Arguments result_of {T E} is_cancel r outcome.
Arguments apply {T E} is_cancel outcome r.
Arguments settle {T E} is_cancel token outcome r.
Arguments tick {T E} r.
Arguments Refresh {T E}.
Arguments Reconfigure {T E}.
Arguments Tick {T E}.
Arguments Settle {T E} token outcome.
Arguments Unmount {T E}.
Arguments step {T E} is_cancel r e.
Arguments run {T E} is_cancel events r.
Arguments invoke {T E} c r.
Arguments render {T E V} renderInitial renderOk renderErr s.
Arguments carried_refresh {T E} s.
Arguments well_formed {T E} r.

End WithAPIData.

(** ** The context objects of [context.tsx] *)
Module Api.

(** The types [Status], [ApiStatus] and [ApiPreferences] are declared
    globally; the providers use the fields below. *)
Definition Status : Type := string.
Record ApiStatus : Type := mkApiStatus { status : Status }.
Record ApiPreferences : Type := mkApiPreferences
  { layout : string;
    language : string }.

End Api.

Module StatusContext.
Local Open Scope string_scope.

Record StatusContextType : Type := mkStatusContextType
  { status : Api.Status;
    refresh : callback }.

Definition initialStatus : StatusContextType :=
  {| status := "unknown"; refresh := initialStatus_refresh |}.

Section Provider.
Variable E : Type.

(** The three render props of [StatusProvider]; each returns a
    [StatusContext.Provider] element around the children, and the value
    below is its [value] prop.  The rest props spread after it are empty by
    the type of the component, which declares [children] only. *)
Definition renderInitial (_ : unit) : StatusContextType := initialStatus.

Definition renderOk (data : Api.ApiStatus) (refresh : callback)
  : StatusContextType :=
  {| status := Api.status data; refresh := refresh |}.

Definition renderErr (_ : E) (refresh : callback) : StatusContextType :=
  {| status := "unknown"; refresh := refresh |}.

Definition StatusProvider
    (s : WithAPIData.AsyncResourceState Api.ApiStatus E)
  : StatusContextType :=
  WithAPIData.render renderInitial renderOk renderErr s.

End Provider.

Definition StatusProvider_repeatOptions : option WithAPIData.RepeatOptions :=
  Some (WithAPIData.mkRepeatOptions 5000 true).

Arguments renderErr {E} _ refresh.
Arguments StatusProvider {E} s.

End StatusContext.

Module PreferencesContext.
Local Open Scope string_scope.

Record PreferencesContextType : Type := mkPreferencesContextType
  { settings : Api.ApiPreferences;
    refresh : callback }.

Definition initialPreferences : PreferencesContextType :=
  {| settings := Api.mkApiPreferences "boxed" "en";
     refresh := initialPreferences_refresh |}.

Section Provider.
Variable E : Type.

Definition renderInitial (_ : unit) : PreferencesContextType :=
  initialPreferences.

Definition renderOk (settings : Api.ApiPreferences) (refresh : callback)
  : PreferencesContextType :=
  {| settings := settings; refresh := refresh |}.

Definition renderErr (_ : E) (refresh : callback) : PreferencesContextType :=
  {| settings := Api.mkApiPreferences "boxed" "en"; refresh := refresh |}.

Definition PreferencesProvider
    (s : WithAPIData.AsyncResourceState Api.ApiPreferences E)
  : PreferencesContextType :=
  WithAPIData.render renderInitial renderOk renderErr s.

End Provider.

(** [PreferencesProvider] passes no [repeatOptions]: one fetch, no polling. *)
Definition PreferencesProvider_repeatOptions
  : option WithAPIData.RepeatOptions := None.

Arguments renderErr {E} _ refresh.
Arguments PreferencesProvider {E} s.

End PreferencesContext.

(** ** The element tree of [GlobalContextProvider] *)
Module GlobalContext.

Section Tree.

(** The error type of the loaders and the type of the [children] prop. *)
Variables E ReactNode : Type.

(** The elements that the providers of [context.tsx] return: a
    [StatusContext.Provider] or a [PreferencesContext.Provider] with its
    [value] prop around one child, and the [children] at the bottom. *)
Inductive element : Type :=
| Children (children : ReactNode)
| StatusContext_Provider
    (value : StatusContext.StatusContextType) (child : element)
| PreferencesContext_Provider
    (value : PreferencesContext.PreferencesContextType) (child : element).

(** [StatusProvider] and [PreferencesProvider] with the element they
    return: whichever render prop the loader picks, it wraps the children
    in the provider, with the value computed above. *)
Definition StatusProvider
    (s : WithAPIData.AsyncResourceState Api.ApiStatus E) (children : element)
  : element :=
  WithAPIData.render
    (fun u => StatusContext_Provider (StatusContext.renderInitial u) children)
    (fun data refresh =>
       StatusContext_Provider (StatusContext.renderOk data refresh) children)
    (fun error refresh =>
       StatusContext_Provider (StatusContext.renderErr error refresh)
                              children)
    s.

Definition PreferencesProvider
    (p : WithAPIData.AsyncResourceState Api.ApiPreferences E)
    (children : element) : element :=
  WithAPIData.render
    (fun u =>
       PreferencesContext_Provider (PreferencesContext.renderInitial u)
                                   children)
    (fun settings refresh =>
       PreferencesContext_Provider
         (PreferencesContext.renderOk settings refresh) children)
    (fun error refresh =>
       PreferencesContext_Provider
         (PreferencesContext.renderErr error refresh) children)
    p.

(** [<StatusProvider><PreferencesProvider>{children}</PreferencesProvider>
    </StatusProvider>], given the result that each loader holds. *)
Definition GlobalContextProvider
    (s : WithAPIData.AsyncResourceState Api.ApiStatus E)
    (p : WithAPIData.AsyncResourceState Api.ApiPreferences E)
    (children : ReactNode) : element :=
  StatusProvider s (PreferencesProvider p (Children children)).

(** [StatusContext = React.createContext(initialStatus)] and
    [PreferencesContext = React.createContext(initialPreferences)]: what a
    consumer placed where the children are reads from each context, namely
    the value of the nearest provider of that context above it, and the
    default given to [createContext] when there is none. *)
Fixpoint StatusContext_Consumer
    (inherited : StatusContext.StatusContextType) (e : element)
  : StatusContext.StatusContextType :=
  match e with
  | Children _ => inherited
  | StatusContext_Provider value child => StatusContext_Consumer value child
  | PreferencesContext_Provider _ child =>
    StatusContext_Consumer inherited child
  end.

Fixpoint PreferencesContext_Consumer
    (inherited : PreferencesContext.PreferencesContextType) (e : element)
  : PreferencesContext.PreferencesContextType :=
  match e with
  | Children _ => inherited
  | StatusContext_Provider _ child =>
    PreferencesContext_Consumer inherited child
  | PreferencesContext_Provider value child =>
    PreferencesContext_Consumer value child
  end.

Definition read_status (e : element) : StatusContext.StatusContextType :=
  StatusContext_Consumer StatusContext.initialStatus e.

Definition read_preferences (e : element)
  : PreferencesContext.PreferencesContextType :=
  PreferencesContext_Consumer PreferencesContext.initialPreferences e.

End Tree.

Arguments Children {ReactNode} children.
Arguments StatusContext_Provider {ReactNode} value child.
Arguments PreferencesContext_Provider {ReactNode} value child.
Arguments StatusProvider {E ReactNode} s children.
Arguments PreferencesProvider {E ReactNode} p children.
Arguments GlobalContextProvider {E ReactNode} s p children.
Arguments read_status {ReactNode} e.
Arguments read_preferences {ReactNode} e.

End GlobalContext.

(** ** Sample inputs *)
Module Samples.
Import Login.
Local Open Scope string_scope.

(** The operator was sent to the login page from [/settings]. *)
Definition bounced : Env :=
  mkEnv (Some (mkLocationState (mkLocation "/settings"))) false
        [("/settings", "Settings")].

(** The login page was opened directly. *)
Definition direct : Env := mkEnv None false [].

(** A fresh page, mounted in a browser that accepts cookies, on which the
    operator has typed a password. *)
Definition typed : World :=
  run SHA256.hexdigest direct [PasswordChange "secret"]
      (mount true (initial_world false)).

(** The same page once the form has been submitted. *)
Definition submitted : World :=
  run SHA256.hexdigest direct [Submit] typed.

(** Errors are strings in the samples, and the one that stands for a
    cancelled request is ["canceled"]. *)
Definition is_cancel (error : string) : bool := error =? "canceled".

(** The status loader right after it was created, and after one [refresh]
    while its first fetch is still in flight. *)
Definition status_loader : WithAPIData.loader Api.ApiStatus string :=
  WithAPIData.create StatusContext.StatusProvider_repeatOptions.

Definition refreshed_once : list (WithAPIData.event Api.ApiStatus string) :=
  [WithAPIData.Refresh].

End Samples.

Module Scenarios.
Import Login.
Local Open Scope string_scope.

(** A fresh page in a browser that refuses cookies, opened directly while
    nobody is logged in. *)
Definition fresh : World := mount false (initial_world false).

(** The same page after the backend has answered the probe with
    ["ldap"]. *)
Definition ldap_page : World :=
  run SHA256.hexdigest Samples.direct [AuthModeResolved "ldap"] fresh.

(** Typing only. *)
Definition typing : list event :=
  [UsernameChange "admin"; PasswordChange "s"; PasswordChange "se"].

(** A first attempt that is rejected and a second one that goes through,
    with a probe that fails in between. *)
Definition two_attempts : list event :=
  [PasswordChange "guess"; Submit; AuthModeRejected; AuthRejected;
   PasswordChange "secret"; Submit; AuthResolved].

(** A session in which somebody is logged in already. *)
Definition logged_in_page : World := mount true (initial_world true).

(** The operator was sent to the login page from a path that is not in the
    table of routes, with the fake API on. *)
Definition unlisted : Env :=
  mkEnv (Some (mkLocationState (mkLocation "/nowhere"))) true
        [("/settings", "Settings")].

(** The recorded path is no route, but the name of a method that every
    object has. *)
Definition inherited_path : Env :=
  mkEnv (Some (mkLocationState (mkLocation "toString"))) false
        [("/settings", "Settings")].


End Scenarios.

(** * Properties *)

(** ** The digest is 64 characters long *)

Lemma hex_of_word_length (x : Z) : String.length (SHA256.hex_of_word x) = 8.
Proof. reflexivity. Qed.

Lemma string_length_append (a b : string) :
  String.length (a ++ b) = String.length a + String.length b.
Proof.
  induction a as [|c a IH]; simpl; [reflexivity | now rewrite IH].
Qed.

Lemma hexdigest_length (s : string) :
  String.length (SHA256.hexdigest s) = 64.
Proof.
  unfold SHA256.hexdigest, SHA256.hex_of_registers.
  repeat rewrite string_length_append.
  repeat rewrite hex_of_word_length. reflexivity.
Qed.

(** The two standard test vectors of FIPS 180-4 that fit in one and in two
    blocks, and the empty message. *)
Example hexdigest_empty :
  SHA256.hexdigest EmptyString
  = "e3b0c44298fc1c149afbf4c8996fb92427ae41e4649b934ca495991b7852b855"%string.
Proof. vm_compute. reflexivity. Qed.

Example hexdigest_abc :
  SHA256.hexdigest "abc"
  = "ba7816bf8f01cfea414140de5dae2223b00361a396177a9cb410ff61f20015ad"%string.
Proof. vm_compute. reflexivity. Qed.

Example hexdigest_two_blocks :
  SHA256.hexdigest "abcdbcdecdefdefgefghfghighijhijkijkljklmklmnlmnomnopnopq"
  = "248d6a61d20638b8e5c026930c3e6039a33ce45964ff2167f6ecedd419db06c1"%string.
Proof. vm_compute. reflexivity. Qed.

(** ** The login page *)
Section LoginProperties.
Import Login.
Local Open Scope string_scope.
Local Open Scope list_scope.

Variable sha256_hex : string -> string.
Variable env : Env.

(** The whole effect of [authenticate] before its promise settles. *)
Lemma authenticate_effect (w : World) :
  exec (authenticate sha256_hex) w
  = mkWorld
      (mkLoginState (username (state w)) EmptyString false
                    (cookiesEnabled (state w)) (ldapAuth (state w)))
      (loggedIn w) (sent w ++ [submitted_request sha256_hex (state w)])
      (probes_pending w) (S (logins_pending w)) (pushed w) (cookie_writes w).
Proof.
  unfold submitted_request, authenticate, exec, bind, this_state.
  destruct (ldapAuth (state w)) eqn:Hmode; cbn; rewrite ?Hmode; reflexivity.
Qed.

Lemma step_submit (w : World) :
  step sha256_hex env w Submit = exec (authenticate sha256_hex) w.
Proof. reflexivity. Qed.

(** C1.  A submission sends exactly one request.  In local mode
    ([ldapAuth] false) it is [api.authenticate] with the hexadecimal SHA-256
    digest of the hexadecimal SHA-256 digest of the password draft, and no
    request with the raw password is sent; in LDAP mode it is
    [api.authenticateLdap] with the username and the password drafts as they
    are. *)
Theorem authenticate_sends_credentials (w : World) :
  sent (exec (authenticate sha256_hex) w)
  = sent w ++
    [if ldapAuth (state w)
     then AuthenticateLdap (username (state w)) (password (state w))
     else Authenticate (sha256_hex (sha256_hex (password (state w))))].
Proof. rewrite authenticate_effect. reflexivity. Qed.

(** C7.  At submission, in either mode and before the request settles (its
    promise is still pending afterwards), the password draft becomes the
    empty string and the error flag becomes false. *)
Theorem authenticate_clears_password_and_error (w : World) :
  let w' := exec (authenticate sha256_hex) w in
  password (state w') = EmptyString
  /\ error (state w') = false
  /\ logins_pending w' = S (logins_pending w)
  /\ loggedIn w' = loggedIn w
  /\ pushed w' = pushed w.
Proof. cbv zeta. rewrite authenticate_effect. cbn. repeat split. Qed.

(** C10.  A submission changes only [password] and [error] of the component
    state: [username] (with [cookiesEnabled] and [ldapAuth]) is kept, and it
    is still there after the attempt has been rejected. *)
Theorem authenticate_keeps_username (w : World) :
  state (exec (authenticate sha256_hex) w)
  = mkLoginState (username (state w)) EmptyString false
                 (cookiesEnabled (state w)) (ldapAuth (state w))
  /\ username (state (exec (authenticate sha256_hex) w)) = username (state w)
  /\ username (state (run sha256_hex env [Submit; AuthRejected] w))
     = username (state w).
Proof.
  split; [|split].
  - rewrite authenticate_effect. reflexivity.
  - rewrite authenticate_effect. reflexivity.
  - cbn [run fold_left]. rewrite step_submit, authenticate_effect.
    reflexivity.
Qed.

(** C5.  When a pending authentication request resolves, [api.loggedIn]
    becomes true and [history.push] is called exactly once, with the
    recorded [location.state.from.pathname] when [location.state] is there
    and with ["/"] otherwise; nothing is sent and the component state is
    kept. *)
Theorem login_success_redirects (w : World) :
  (0 < logins_pending w)%nat ->
  let w' := step sha256_hex env w AuthResolved in
  loggedIn w' = true
  /\ pushed w'
     = pushed w ++ [match location_state env with
                    | Some st => pathname (from st)
                    | None => "/"
                    end]
  /\ sent w' = sent w
  /\ state w' = state w.
Proof.
  intros Hpending. cbv zeta.
  unfold step, exec, handle, bind, pending_logins.
  apply Nat.ltb_lt in Hpending. rewrite Hpending.
  unfold when, authenticate_then, bind.
  destruct (fakeAPI env); destruct (location_state env); cbn; repeat split.
Qed.

(** C2, as the component behaves.  Mounting while [api.loggedIn] is true
    renders [<Redirect to="/" />], and [componentWillMount] has sent exactly
    one request before that, the authentication-mode probe; no
    authentication request is sent. *)
Theorem mount_while_logged_in (navigator_cookieEnabled : bool) (w : World) :
  loggedIn w = true ->
  render env (mount navigator_cookieEnabled w) = Redirect "/"
  /\ sent (mount navigator_cookieEnabled w) = sent w ++ [CheckAuthMode]
  /\ probes_pending (mount navigator_cookieEnabled w) = S (probes_pending w)
  /\ logins_pending (mount navigator_cookieEnabled w) = logins_pending w.
Proof.
  intros Hin. unfold render, mount, componentWillMount, exec, bind, when.
  destruct navigator_cookieEnabled; cbn; rewrite Hin; repeat split.
Qed.






(** No handler reads or writes the sampled cookie signal: blanking it out
    commutes with every step. *)
Lemma step_without_cookie_signal (w : World) (e : event) :
  without_cookie_signal (step sha256_hex env w e)
  = step sha256_hex env (without_cookie_signal w) e.
Proof.
  destruct e;
    try (rewrite !step_submit, !authenticate_effect; reflexivity);
    unfold step, exec, handle, bind, when; cbn.
  - reflexivity.
  - reflexivity.
  - destruct (probes_pending w); reflexivity.
  - destruct (probes_pending w); reflexivity.
  - destruct (logins_pending w); [reflexivity|].
    cbn. destruct (fakeAPI env); reflexivity.
  - destruct (logins_pending w); reflexivity.
Qed.

Lemma run_without_cookie_signal (events : list event) :
  forall w : World,
    without_cookie_signal (run sha256_hex env events w)
    = run sha256_hex env events (without_cookie_signal w).
Proof.
  induction events as [|e rest IH]; intros w; [reflexivity|].
  cbn [run fold_left]. unfold run in IH.
  rewrite IH, step_without_cookie_signal. reflexivity.
Qed.

Lemma step_keeps_cookiesEnabled (w : World) (e : event) :
  cookiesEnabled (state (step sha256_hex env w e)) = cookiesEnabled (state w).
Proof.
  destruct e;
    try (rewrite step_submit, authenticate_effect; reflexivity);
    unfold step, exec, handle, bind, when; cbn;
    try reflexivity.
  - destruct (probes_pending w); reflexivity.
  - destruct (probes_pending w); reflexivity.
  - destruct (logins_pending w); [reflexivity|].
    cbn. destruct (fakeAPI env); reflexivity.
  - destruct (logins_pending w); reflexivity.
Qed.

Lemma run_keeps_cookiesEnabled (events : list event) :
  forall w : World,
    cookiesEnabled (state (run sha256_hex env events w))
    = cookiesEnabled (state w).
Proof.
  induction events as [|e rest IH]; intros w; [reflexivity|].
  cbn [run fold_left]. unfold run in IH.
  rewrite IH. apply step_keeps_cookiesEnabled.
Qed.

Lemma mount_without_cookie_signal (b1 b2 : bool) (w : World) :
  without_cookie_signal (mount b1 w) = without_cookie_signal (mount b2 w).
Proof. destruct b1, b2; reflexivity. Qed.

(** C9.  [navigator.cookieEnabled] is read by [componentWillMount] only, and
    the copy in the state never changes afterwards.  Two runs of the same
    events that differ only in the sampled value send the same requests,
    navigate alike, leave the same session flag, pending promises and cookie
    writes, and have the same drafts, error flag and mode; what they render
    differs at most in the cookie warning. *)
Theorem cookie_signal_does_not_influence
    (events : list event) (w : World) (b1 b2 logged_in : bool) :
  let w1 := run sha256_hex env events (mount b1 w) in
  let w2 := run sha256_hex env events (mount b2 w) in
  (sent w1 = sent w2 /\ pushed w1 = pushed w2 /\ loggedIn w1 = loggedIn w2
   /\ cookie_writes w1 = cookie_writes w2
   /\ probes_pending w1 = probes_pending w2
   /\ logins_pending w1 = logins_pending w2)
  /\ (username (state w1) = username (state w2)
      /\ password (state w1) = password (state w2)
      /\ error (state w1) = error (state w2)
      /\ ldapAuth (state w1) = ldapAuth (state w2))
  /\ match render env w1, render env w2 with
     | Redirect to1, Redirect to2 => to1 = to2
     | LoginForm f1, LoginForm f2 =>
       transfer_notice f1 = transfer_notice f2
       /\ wrong_password f1 = wrong_password f2
       /\ username_input f1 = username_input f2
       /\ password_input f1 = password_input f2
     | _, _ => False
     end
  /\ cookiesEnabled
       (state (run sha256_hex env events (mount b1 (initial_world logged_in))))
     = b1.
Proof.
  cbv zeta.
  pose proof (run_without_cookie_signal events (mount b1 w)) as H1.
  pose proof (run_without_cookie_signal events (mount b2 w)) as H2.
  rewrite (mount_without_cookie_signal b1 b2 w) in H1.
  rewrite <- H2 in H1. clear H2.
  set (w1 := run sha256_hex env events (mount b1 w)) in *.
  set (w2 := run sha256_hex env events (mount b2 w)) in *.
  unfold without_cookie_signal in H1.
  injection H1 as Hu Hpw He Hm Hl Hsent Hpp Hlp Hp Hc.
  split; [|split; [|split]].
  - repeat split; assumption.
  - repeat split; assumption.
  - unfold render. rewrite Hl, Hu, Hpw, He, Hm.
    destruct (loggedIn w2); [reflexivity|]. cbn. repeat split.
  - rewrite run_keeps_cookiesEnabled. destruct b1; reflexivity.
Qed.

End LoginProperties.

(** ** The data loader and the context providers *)
Section LoaderProperties.
Import WithAPIData.
Local Open Scope list_scope.

Variables T E : Type.
Variable is_cancel : E -> bool.

Lemma remove_first_subset (token t : nat) (tokens : list nat) :
  In t (remove_first token tokens) -> In t tokens.
Proof.
  induction tokens as [|x rest IH]; cbn; [tauto|].
  destruct (Nat.eqb x token); cbn; tauto.
Qed.

Lemma create_well_formed (options : option RepeatOptions) :
  well_formed (create (T:=T) (E:=E) options).
Proof.
  split; cbn.
  - intros t [<-|[]]. constructor.
  - discriminate.
Qed.

Lemma issue_well_formed (r : loader T E) :
  well_formed r -> well_formed (issue r).
Proof.
  intros [Hfly Hcb]. split; cbn; [|exact Hcb].
  intros t [<-|Hin]; [constructor | now apply Hfly].
Qed.

Lemma refresh_well_formed (r : loader T E) :
  well_formed r -> well_formed (refresh r).
Proof.
  intros [Hfly Hcb]. split; cbn; [|exact Hcb].
  intros t [<-|Hin]; [constructor|]. apply Hfly in Hin. lia.
Qed.

Lemma settle_well_formed (token : nat) (outcome : T + E) (r : loader T E) :
  well_formed r -> well_formed (settle is_cancel token outcome r).
Proof.
  intros [Hfly Hcb]. unfold settle.
  destruct (existsb (Nat.eqb token) (in_flight r)); [|now split].
  destruct (Nat.eqb token (generation r) && negb (unmounted r)).
  - unfold apply, result_of.
    destruct outcome as [value|error]; cbn.
    + split; cbn.
      * intros t Hin. apply Hfly. eapply remove_first_subset, Hin.
      * intros c [= <-]. reflexivity.
    + destruct (repeatOptions r) as [options|];
        [destruct (ignoreCancel options && is_cancel error)|];
        split; cbn;
          try (intros t Hin; apply Hfly; eapply remove_first_subset, Hin);
          try (intros c [= <-]; reflexivity).
      exact Hcb.
  - split; cbn; [|exact Hcb].
    intros t Hin. apply Hfly. eapply remove_first_subset, Hin.
Qed.

Lemma step_well_formed (r : loader T E) (e : event T E) :
  well_formed r -> well_formed (step is_cancel r e).
Proof.
  intros Hwf. destruct e; cbn [step].
  - now apply refresh_well_formed.
  - now apply refresh_well_formed.
  - unfold tick. destruct (timer r); [|exact Hwf].
    destruct Hwf as [Hfly Hcb]. split; cbn; [|exact Hcb].
    intros t [<-|Hin]; [constructor | now apply Hfly].
  - now apply settle_well_formed.
  - destruct Hwf as [Hfly Hcb]. split; cbn; [|exact Hcb].
    intros t Hin. apply Hfly in Hin. lia.
Qed.

Lemma run_well_formed (events : list (event T E)) :
  forall r : loader T E,
    well_formed r -> well_formed (run is_cancel events r).
Proof.
  induction events as [|e rest IH]; intros r Hwf; [exact Hwf|].
  cbn [run fold_left]. apply IH, step_well_formed, Hwf.
Qed.

(** C8.  In every run of a loader, the result of a fetch whose generation
    token is older than the loader's current generation is dropped when it
    arrives: the result, what was presented, the timer and the generation
    stay as they were.  No token in flight is newer than the generation, and
    [refresh] and teardown make every fetch in flight stale. *)
Theorem stale_result_never_applied
    (options : option RepeatOptions) (events : list (event T E))
    (token : nat) (outcome : T + E) :
  let r := run is_cancel events (create options) in
  token < generation r ->
  let r' := settle is_cancel token outcome r in
  (current r' = current r /\ presented r' = presented r
   /\ timer r' = timer r /\ generation r' = generation r)
  /\ (forall t, In t (in_flight r) ->
        t <= generation r
        /\ t < generation (refresh r) /\ t < generation (unmount r)).
Proof.
  intros r Hstale r'.
  assert (Hwf : well_formed r) by apply run_well_formed, create_well_formed.
  split.
  - subst r'. unfold settle.
    destruct (existsb (Nat.eqb token) (in_flight r)); [|repeat split].
    assert (Hne : Nat.eqb token (generation r) = false)
      by (apply Nat.eqb_neq; lia).
    rewrite Hne. cbn. repeat split.
  - intros t Hin. destruct Hwf as [Hfly _]. apply Hfly in Hin.
    cbn. lia.
Qed.

End LoaderProperties.

Section ProviderProperties.
Import WithAPIData.
Local Open Scope string_scope.
Local Open Scope list_scope.

Variable E : Type.
Variable is_cancel : E -> bool.

(** C3.  The status published by [StatusProvider] is ["unknown"] while the
    loader has no data and when it has an error, and [data.status] when it
    has data; the settings published by [PreferencesProvider] are
    [{ layout: "boxed", language: "en" }] in the first two cases and the
    fetched settings in the third. *)
Theorem providers_publish_default_or_value
    (s : AsyncResourceState Api.ApiStatus E)
    (p : AsyncResourceState Api.ApiPreferences E) :
  StatusContext.status (StatusContext.StatusProvider s)
  = match s with
    | Initial => "unknown"
    | Ok data _ => Api.status data
    | Err _ _ => "unknown"
    end
  /\ PreferencesContext.settings (PreferencesContext.PreferencesProvider p)
     = match p with
       | Initial => Api.mkApiPreferences "boxed" "en"
       | Ok settings _ => settings
       | Err _ _ => Api.mkApiPreferences "boxed" "en"
       end.
Proof. destruct s, p; split; reflexivity. Qed.

(** The callback that each provider publishes is the carried one, or its
    own placeholder when the result carries none. *)
Lemma published_refresh_status (s : AsyncResourceState Api.ApiStatus E) :
  StatusContext.refresh (StatusContext.StatusProvider s)
  = match carried_refresh s with
    | Some c => c
    | None => initialStatus_refresh
    end.
Proof. destruct s; reflexivity. Qed.

Lemma published_refresh_preferences
    (p : AsyncResourceState Api.ApiPreferences E) :
  PreferencesContext.refresh (PreferencesContext.PreferencesProvider p)
  = match carried_refresh p with
    | Some c => c
    | None => initialPreferences_refresh
    end.
Proof. destruct p; reflexivity. Qed.

Lemma invoke_loader_refresh (T : Type) (r : loader T E) :
  fetches (invoke loader_refresh r) = S (fetches r)
  /\ timer (invoke loader_refresh r) = false
  /\ generation (invoke loader_refresh r) = S (generation r)
  /\ in_flight (invoke loader_refresh r) = S (generation r) :: in_flight r.
Proof. cbn. repeat split. Qed.

(** C4, as the providers behave.  With a value or an error, each provider
    publishes the loader's own [refresh], always the same function, and
    calling it cancels the timer and issues one new fetch at once, in a new
    generation.  While the loader has no data yet, each provider publishes
    its module-level placeholder, again the same function on every render,
    and calling that does nothing. *)
Theorem published_refresh_behaviour
    (status_events : list (event Api.ApiStatus E))
    (preferences_events : list (event Api.ApiPreferences E)) :
  let rs :=
    run is_cancel status_events
        (create StatusContext.StatusProvider_repeatOptions) in
  let rp :=
    run is_cancel preferences_events
        (create PreferencesContext.PreferencesProvider_repeatOptions) in
  let cs := StatusContext.refresh (StatusContext.StatusProvider (current rs)) in
  let cp :=
    PreferencesContext.refresh
      (PreferencesContext.PreferencesProvider (current rp)) in
  match current rs with
  | Initial => cs = initialStatus_refresh /\ invoke cs rs = rs
  | _ =>
    cs = loader_refresh
    /\ fetches (invoke cs rs) = S (fetches rs)
    /\ timer (invoke cs rs) = false
    /\ generation (invoke cs rs) = S (generation rs)
    /\ in_flight (invoke cs rs) = S (generation rs) :: in_flight rs
  end
  /\ match current rp with
     | Initial => cp = initialPreferences_refresh /\ invoke cp rp = rp
     | _ =>
       cp = loader_refresh
       /\ fetches (invoke cp rp) = S (fetches rp)
       /\ timer (invoke cp rp) = false
       /\ generation (invoke cp rp) = S (generation rp)
       /\ in_flight (invoke cp rp) = S (generation rp) :: in_flight rp
     end.
Proof.
  intros rs rp cs cp.
  assert (Hs : well_formed rs)
    by apply run_well_formed, create_well_formed.
  assert (Hp : well_formed rp)
    by apply run_well_formed, create_well_formed.
  destruct Hs as [_ Hs]. destruct Hp as [_ Hp].
  subst cs cp. rewrite published_refresh_status, published_refresh_preferences.
  split.
  - destruct (current rs) as [|v c|e c]; cbn [carried_refresh].
    + split; reflexivity.
    + rewrite (Hs c eq_refl). split; [reflexivity|].
      apply invoke_loader_refresh.
    + rewrite (Hs c eq_refl). split; [reflexivity|].
      apply invoke_loader_refresh.
  - destruct (current rp) as [|v c|e c]; cbn [carried_refresh].
    + split; reflexivity.
    + rewrite (Hp c eq_refl). split; [reflexivity|].
      apply invoke_loader_refresh.
    + rewrite (Hp c eq_refl). split; [reflexivity|].
      apply invoke_loader_refresh.
Qed.

End ProviderProperties.

(** ** The properties at sample inputs *)
Section Instances.
Import Login.
Local Open Scope string_scope.
Local Open Scope list_scope.

(** With the real digest, the password ["secret"] goes out as the digest of
    its digest. *)
Example submit_secret :
  sent Samples.submitted
  = [CheckAuthMode;
     Authenticate
       "3d91b58504a6cc3a159005ee7b16c7ae503ca6ac2a6a3c893837083c236b864a"].
Proof. vm_compute. reflexivity. Qed.

(** What is sent in local mode has 64 characters; a password of another
    length is therefore never sent as it is. *)
Lemma local_request_is_not_the_password (w : World) :
  ldapAuth (state w) = false ->
  String.length (password (state w)) <> 64 ->
  submitted_request SHA256.hexdigest (state w)
  <> Authenticate (password (state w)).
Proof.
  intros Hmode Hlen. unfold submitted_request. rewrite Hmode.
  intros [= Heq]. apply Hlen. rewrite <- Heq at 1. apply hexdigest_length.
Qed.

(** C2 as stated fails: mounting a fresh page while [api.loggedIn] is true
    sends the authentication-mode probe. *)
Lemma mount_while_logged_in_probes :
  loggedIn (initial_world true) = true
  /\ sent (initial_world true) = []
  /\ sent (mount true (initial_world true)) = [CheckAuthMode]
  /\ sent (mount true (initial_world true)) <> sent (initial_world true).
Proof. repeat split. discriminate. Qed.

Lemma mount_while_logged_in_witness :
  loggedIn (initial_world true) = true
  /\ render Samples.direct (mount true (initial_world true)) = Redirect "/"
  /\ sent (mount true (initial_world true)) = [CheckAuthMode].
Proof.
  split; [reflexivity|].
  destruct (mount_while_logged_in Samples.direct true (initial_world true))
    as (Hrender & Hsent & _); [reflexivity|].
  split; [exact Hrender | exact Hsent].
Defined.

Lemma login_success_redirects_witness :
  (0 < logins_pending Samples.submitted)%nat
  /\ loggedIn (step SHA256.hexdigest Samples.bounced Samples.submitted
                    AuthResolved) = true
  /\ pushed (step SHA256.hexdigest Samples.bounced Samples.submitted
                  AuthResolved) = ["/settings"].
Proof.
  assert (Hpending : (0 < logins_pending Samples.submitted)%nat)
    by (vm_compute; lia).
  split; [exact Hpending|].
  destruct (login_success_redirects SHA256.hexdigest Samples.bounced
              Samples.submitted Hpending) as (Hin & Hpush & _).
  split; [exact Hin | exact Hpush].
Defined.



End Instances.

Section LoaderInstances.
Import WithAPIData.
Local Open Scope string_scope.
Local Open Scope list_scope.

(** C4 as stated fails: before the first result arrives, [StatusProvider]
    publishes the placeholder of [initialStatus], and calling it issues no
    fetch. *)
Lemma initial_refresh_does_nothing :
  current Samples.status_loader = Initial
  /\ StatusContext.refresh
       (StatusContext.StatusProvider (current Samples.status_loader))
     = initialStatus_refresh
  /\ fetches Samples.status_loader = 1
  /\ fetches
       (invoke
          (StatusContext.refresh
             (StatusContext.StatusProvider (current Samples.status_loader)))
          Samples.status_loader) = 1.
Proof. repeat split. Qed.

Lemma stale_result_never_applied_witness :
  0 < generation
        (run Samples.is_cancel Samples.refreshed_once
             (create StatusContext.StatusProvider_repeatOptions))
  /\ current
       (settle Samples.is_cancel 0 (inl (Api.mkApiStatus "enabled"))
          (run Samples.is_cancel Samples.refreshed_once
               (create StatusContext.StatusProvider_repeatOptions)))
     = Initial.
Proof.
  assert (Hstale :
            0 < generation
                  (run Samples.is_cancel Samples.refreshed_once
                       (create StatusContext.StatusProvider_repeatOptions)))
    by (cbn; lia).
  split; [exact Hstale|].
  destruct (stale_result_never_applied Api.ApiStatus string Samples.is_cancel
              StatusContext.StatusProvider_repeatOptions
              Samples.refreshed_once 0 (inl (Api.mkApiStatus "enabled"))
              Hstale) as ((Hcurrent & _) & _).
  rewrite Hcurrent. reflexivity.
Defined.

End LoaderInstances.

(** ** Whole sessions on the login page *)
Section LoginSessions.
Import Login.
Local Open Scope string_scope.
Local Open Scope list_scope.

Variable sha256_hex : string -> string.
Variable env : Env.

(** Case analysis on one step: the submission through its closed form, the
    settlements by whether a promise is pending. *)
Ltac step_cases w :=
  try rewrite !step_submit, !authenticate_effect;
  unfold step, exec, handle, bind, when, pending_probes, pending_logins;
  cbn;
  try (destruct (probes_pending w) eqn:?; cbn);
  try (destruct (logins_pending w) eqn:?; cbn);
  try (destruct (fakeAPI env) eqn:?; cbn).

Lemma run_cons (e : event) (rest : list event) (w : World) :
  run sha256_hex env (e :: rest) w = run sha256_hex env rest (step sha256_hex env w e).
Proof. reflexivity. Qed.

Lemma step_sent_length (w : World) (e : event) :
  List.length (sent (step sha256_hex env w e))
  = List.length (sent w) + (if is_submit e then 1 else 0).
Proof.
  destruct e; step_cases w; rewrite ?length_app; cbn; lia.
Qed.

(** Only a submission sends a request, and each submission sends one:
    keystrokes, probe answers and the outcome of an attempt send nothing, so
    a rejected attempt is not retried by the page itself. *)
Theorem requests_only_on_submit (events : list event) (w : World) :
  List.length (sent (run sha256_hex env events w))
  = List.length (sent w) + submissions events.
Proof.
  revert w. induction events as [|e rest IH]; intros w.
  - cbn. lia.
  - rewrite run_cons, IH, step_sent_length. unfold submissions. cbn.
    destruct (is_submit e); cbn; lia.
Qed.

(** What is typed is what is submitted: after the two fields have been
    filled in, in either order, a submission sends the typed username and
    password in LDAP mode and the double digest of the typed password
    otherwise, and of several keystrokes in a field the last one counts. *)
Theorem typed_credentials_are_submitted
    (w : World) (u p stale : string) :
  let request :=
    if ldapAuth (state w) then AuthenticateLdap u p
    else Authenticate (sha256_hex (sha256_hex p)) in
  sent (run sha256_hex env [UsernameChange u; PasswordChange p; Submit] w)
  = sent w ++ [request]
  /\ sent (run sha256_hex env [PasswordChange p; UsernameChange u; Submit] w)
     = sent w ++ [request]
  /\ sent (run sha256_hex env [PasswordChange stale; PasswordChange p; UsernameChange stale;
                 UsernameChange u; Submit] w)
     = sent w ++ [request].
Proof.
  cbv zeta. unfold run. cbn [fold_left].
  rewrite !step_submit, !authenticate_effect. unfold submitted_request.
  cbn. destruct (ldapAuth (state w)); repeat split.
Qed.

Lemma step_ldapAuth (w : World) (e : event) :
  ldapAuth (state (step sha256_hex env w e)) = true ->
  ldapAuth (state w) = true \/ answers_ldap e = true.
Proof.
  destruct e; step_cases w; auto.
Qed.

(** The page is in LDAP mode only if the backend said so: whatever
    happens, [ldapAuth] is true afterwards only if it was true before or a
    probe was answered with exactly ["ldap"].  A probe that fails, or that
    is answered with anything else, leaves or puts the page in local mode. *)
Theorem ldap_mode_needs_ldap_answer (events : list event) (w : World) :
  ldapAuth (state (run sha256_hex env events w)) = true ->
  ldapAuth (state w) = true \/ existsb answers_ldap events = true.
Proof.
  revert w. induction events as [|e rest IH]; intros w Hmode.
  - left. exact Hmode.
  - rewrite run_cons in Hmode. cbn [existsb].
    destruct (IH _ Hmode) as [Hstep|Hrest].
    + destruct (step_ldapAuth w e Hstep) as [H|H]; [now left|].
      right. rewrite H. reflexivity.
    + right. rewrite Hrest. apply orb_true_r.
Qed.

Lemma existsb_app_single {A : Type} (f : A -> bool) (xs : list A) (x : A) :
  existsb f (xs ++ [x]) = existsb f xs || f x.
Proof. rewrite existsb_app. cbn. now rewrite orb_false_r. Qed.

Lemma step_raw_password (w : World) (e : event) :
  answers_ldap e = false ->
  ldapAuth (state w) = false ->
  ldapAuth (state (step sha256_hex env w e)) = false
  /\ existsb carries_raw_password (sent (step sha256_hex env w e))
     = existsb carries_raw_password (sent w).
Proof.
  intros Hanswer Hmode.
  destruct e; step_cases w; unfold submitted_request;
    rewrite ?Hmode, ?existsb_app_single, ?orb_false_r; cbn;
    rewrite ?orb_false_r; auto.
Qed.

(** As long as no probe is answered with ["ldap"], a page in local mode
    never sends the password as typed: no [api.authenticateLdap] request
    leaves it, whatever is typed and however often the form is submitted. *)
Theorem raw_password_needs_ldap_answer (events : list event) (w : World) :
  existsb answers_ldap events = false ->
  ldapAuth (state w) = false ->
  existsb carries_raw_password (sent (run sha256_hex env events w))
  = existsb carries_raw_password (sent w).
Proof.
  revert w. induction events as [|e rest IH]; intros w Hnone Hmode.
  - reflexivity.
  - cbn [existsb] in Hnone. apply orb_false_iff in Hnone as [He Hrest].
    destruct (step_raw_password w e He Hmode) as [Hmode' Hsent].
    rewrite run_cons, (IH _ Hrest Hmode'). exact Hsent.
Qed.

Lemma step_loggedIn (w : World) (e : event) :
  loggedIn w = true -> loggedIn (step sha256_hex env w e) = true.
Proof. intros Hin. destruct e; step_cases w; auto. Qed.

(** The page never clears the session flag: once [api.loggedIn] is true it
    stays true through every event, and every later [render] is the
    redirect to ["/"], never the form. *)
Theorem session_flag_is_never_reset (events : list event) (w : World) :
  loggedIn w = true ->
  loggedIn (run sha256_hex env events w) = true
  /\ render env (run sha256_hex env events w) = Redirect "/".
Proof.
  revert w. induction events as [|e rest IH]; intros w Hin.
  - unfold run. cbn [fold_left].
    split; [exact Hin|]. unfold render. now rewrite Hin.
  - rewrite run_cons. apply IH, step_loggedIn, Hin.
Qed.

Lemma step_sets_loggedIn (w : World) (e : event) :
  loggedIn w = false -> loggedIn (step sha256_hex env w e) = true ->
  e = AuthResolved /\ 0 < logins_pending w.
Proof.
  intros Hout. destruct e; step_cases w; rewrite ?Hout;
    intros Hin; try discriminate Hin.
  all: split; [reflexivity | lia].
Qed.

Lemma step_logins_pending (w : World) (e : event) :
  0 < logins_pending (step sha256_hex env w e) -> 0 < logins_pending w \/ e = Submit.
Proof.
  destruct e; step_cases w; intros H; auto; left; lia.
Qed.

Lemma login_needs_pending_or_submission (events : list event) :
  forall w : World,
    loggedIn w = false ->
    loggedIn (run sha256_hex env events w) = true ->
    exists before after,
      events = before ++ AuthResolved :: after
      /\ (0 < logins_pending w \/ In Submit before).
Proof.
  induction events as [|e rest IH]; intros w Hout Hin.
  - cbn in Hin. congruence.
  - rewrite run_cons in Hin.
    destruct (loggedIn (step sha256_hex env w e)) eqn:Hstep.
    + destruct (step_sets_loggedIn w e Hout Hstep) as [-> Hpending].
      exists [], rest. split; [reflexivity | now left].
    + destruct (IH _ Hstep Hin) as (before & after & -> & Hwhy).
      exists (e :: before), after. split; [reflexivity|].
      destruct Hwhy as [Hpending|Hsubmitted].
      * destruct (step_logins_pending w e Hpending) as [H| ->];
          [now left | right; now left].
      * right. now right.
Qed.

(** [api.loggedIn] becomes true only through an attempt that succeeds: on
    a page with nobody logged in and no request pending, if the flag is
    true after some events, then among them an authentication request
    resolved, and the form had been submitted before that. *)
Theorem session_flag_needs_resolved_submission
    (events : list event) (w : World) :
  loggedIn w = false ->
  logins_pending w = 0 ->
  loggedIn (run sha256_hex env events w) = true ->
  exists before after,
    events = before ++ AuthResolved :: after /\ In Submit before.
Proof.
  intros Hout Hnone Hin.
  destruct (login_needs_pending_or_submission events w Hout Hin)
    as (before & after & Hsplit & [Hpending|Hsubmitted]).
  - lia.
  - now exists before, after.
Qed.

Lemma step_success (w : World) (e : event) :
  logins_pending (step sha256_hex env w e)
  = pending_after (logins_pending w) e
  /\ pushed (step sha256_hex env w e)
     = pushed w
       ++ repeat (destination env)
                 (if succeeds (logins_pending w) e then 1 else 0)
  /\ cookie_writes (step sha256_hex env w e)
     = cookie_writes w
       ++ (if fakeAPI env
           then repeat "user_id=;"
                       (if succeeds (logins_pending w) e then 1 else 0)
           else [])
  /\ (succeeds (logins_pending w) e = true ->
      loggedIn (step sha256_hex env w e) = true).
Proof.
  destruct e;
    try (step_cases w; rewrite ?app_nil_r; repeat split;
         solve [reflexivity | discriminate]).
  - unfold step, exec, handle, bind, when, pending_logins. cbn.
    destruct (logins_pending w) eqn:Hnone; cbn.
    + destruct (fakeAPI env); rewrite !app_nil_r; repeat split;
        solve [exact Hnone | discriminate].
    + unfold authenticate_then, bind, when, destination.
      destruct (fakeAPI env); cbn; destruct (location_state env);
        cbn; rewrite ?app_nil_r, ?Hnone; repeat split.
  - unfold step, exec, handle, bind, when, pending_logins. cbn.
    destruct (logins_pending w) eqn:Hnone; cbn;
      destruct (fakeAPI env); rewrite ?app_nil_r, ?Hnone; repeat split;
        solve [exact Hnone | discriminate].
Qed.

(** The page navigates once per successful attempt and only then: after
    any events, what was given to [history.push] is the recorded
    destination (or ["/"]), as many times as authentication requests have
    resolved, and nothing else.  The marker cookie is written at those
    moments, in fake-API mode only, and never otherwise; and as long as
    nobody is logged in, no attempt has succeeded and nothing was pushed
    or written. *)
Theorem navigation_only_on_success (events : list event) (w : World) :
  pushed (run sha256_hex env events w)
  = pushed w
    ++ repeat (destination env) (successes (logins_pending w) events)
  /\ cookie_writes (run sha256_hex env events w)
     = cookie_writes w
       ++ (if fakeAPI env
           then repeat "user_id=;" (successes (logins_pending w) events)
           else [])
  /\ (loggedIn (run sha256_hex env events w) = false ->
      successes (logins_pending w) events = 0).
Proof.
  revert w. induction events as [|e rest IH]; intros w.
  - unfold run. cbn.
    destruct (fakeAPI env); rewrite !app_nil_r; repeat split.
  - rewrite run_cons. cbn [successes].
    destruct (step_success w e) as (Hpending & Hpush & Hcookie & Hin).
    destruct (IH (step sha256_hex env w e)) as (Hp2 & Hc2 & Hk2).
    rewrite Hp2, Hc2, Hpush, Hcookie, Hpending, repeat_app, <- !app_assoc.
    split; [reflexivity|]. split.
    + destruct (fakeAPI env); [|reflexivity].
      now rewrite repeat_app.
    + intros Hout. rewrite Hpending in Hk2. rewrite (Hk2 Hout).
      destruct (succeeds (logins_pending w) e) eqn:Hyes; [|reflexivity].
      pose proof (session_flag_is_never_reset rest _ (Hin eq_refl))
        as [Hlogged _].
      congruence.
Qed.

Lemma step_typing (w : World) (e : event) :
  is_typing e = true ->
  step sha256_hex env w e
  = mkWorld
      (mkLoginState (username (state (step sha256_hex env w e)))
                    (password (state (step sha256_hex env w e)))
                    (error (state w)) (cookiesEnabled (state w))
                    (ldapAuth (state w)))
      (loggedIn w) (sent w) (probes_pending w) (logins_pending w)
      (pushed w) (cookie_writes w).
Proof. destruct e; try discriminate; reflexivity. Qed.

(** Typing is local: keystrokes in the two fields change the drafts and
    nothing else.  No request is sent, nothing is navigated or written, the
    pending promises and the mode stay, and the error flag of a rejected
    attempt stays up while the operator types again. *)
Theorem typing_is_local (events : list event) (w : World) :
  forallb is_typing events = true ->
  let w' := run sha256_hex env events w in
  (error (state w') = error (state w)
   /\ ldapAuth (state w') = ldapAuth (state w)
   /\ cookiesEnabled (state w') = cookiesEnabled (state w))
  /\ (sent w' = sent w /\ pushed w' = pushed w
      /\ cookie_writes w' = cookie_writes w /\ loggedIn w' = loggedIn w)
  /\ (probes_pending w' = probes_pending w
      /\ logins_pending w' = logins_pending w).
Proof.
  revert w. induction events as [|e rest IH]; intros w Hall.
  - cbn. repeat split.
  - cbn [forallb] in Hall. apply andb_true_iff in Hall as [He Hrest].
    cbv zeta. rewrite run_cons.
    destruct (IH (step sha256_hex env w e) Hrest)
      as ((H1 & H2 & H3) & (H4 & H5 & H6 & H7) & (H8 & H9)).
    rewrite H1, H2, H3, H4, H5, H6, H7, H8, H9.
    rewrite (step_typing w e He). cbn. repeat split.
Qed.

(** The form shows the drafts: while nobody is logged in, what [render]
    puts in the password input is what was typed last, the username input
    is there in LDAP mode only and shows the typed username, and the error
    message is as it was; after a submission the password input is empty
    again and the error message is gone. *)
Theorem form_shows_drafts (w : World) (u p : string) :
  loggedIn w = false ->
  (exists f,
      render env (run sha256_hex env [UsernameChange u; PasswordChange p] w)
      = LoginForm f
      /\ password_input f = p
      /\ username_input f = (if ldapAuth (state w) then Some u else None)
      /\ wrong_password f = error (state w))
  /\ (exists f,
         render env
           (run sha256_hex env [UsernameChange u; PasswordChange p; Submit] w)
         = LoginForm f
         /\ password_input f = EmptyString
         /\ username_input f = (if ldapAuth (state w) then Some u else None)
         /\ wrong_password f = false).
Proof.
  intros Hout. unfold run. cbn [fold_left].
  rewrite step_submit, authenticate_effect.
  unfold render. cbn. rewrite Hout.
  split; eexists; (split; [reflexivity|]); cbn; repeat split.
Qed.

Lemma get_property_own (key title : string) (table : list (string * string)) :
  get_property key table = Some (Own title) <-> lookup key table = Some title.
Proof.
  unfold get_property. destruct (lookup key table) as [value|].
  - split; intros [= ->]; reflexivity.
  - destruct (inherits key); split; discriminate.
Qed.

(** The notice names the page that a successful login leads to: when
    [render] shows the line about being transferred to a page, the page it
    names is [routes(t)] at the recorded path (the title listed for that
    path when the path is listed), and the recorded path is what
    [history.push] receives when the pending attempt succeeds. *)
Theorem transfer_notice_names_destination
    (w : World) (f : Form) (page : property) :
  render env w = LoginForm f ->
  transfer_notice f = Some page ->
  (0 < logins_pending w)%nat ->
  get_property (destination env) (routes env) = Some page
  /\ (forall title,
        page = Own title
        <-> lookup (destination env) (routes env) = Some title)
  /\ pushed (step sha256_hex env w AuthResolved)
     = pushed w ++ [destination env].
Proof.
  intros Hrender Hnotice Hpending. unfold render in Hrender.
  destruct (loggedIn w); [discriminate|].
  injection Hrender as <-. cbn in Hnotice. unfold destination.
  assert (Hpage :
            get_property
              match location_state env with
              | Some st => pathname (from st)
              | None => "/"
              end (routes env) = Some page).
  { destruct (location_state env) as [st|]; [|discriminate].
    destruct (has_property (pathname (from st)) (routes env));
      [exact Hnotice | discriminate]. }
  split; [exact Hpage|]. split.
  - intros title. rewrite <- get_property_own, Hpage.
    split; [intros -> | intros [= ->]]; reflexivity.
  - unfold step, exec, handle, bind, when, pending_logins.
    apply Nat.ltb_lt in Hpending. rewrite Hpending.
    unfold authenticate_then, bind, when.
    destruct (fakeAPI env); destruct (location_state env); reflexivity.
Qed.

(** The recorded path is not checked against the routes: when it is no
    property of [routes(t)] at all, neither listed nor inherited, [render]
    shows no notice, and a successful login still hands that very path to
    [history.push]. *)
Theorem unlisted_destination_is_still_pushed
    (w : World) (st : LocationState) :
  location_state env = Some st ->
  has_property (pathname (from st)) (routes env) = false ->
  loggedIn w = false ->
  (0 < logins_pending w)%nat ->
  (exists f, render env w = LoginForm f /\ transfer_notice f = None)
  /\ pushed (step sha256_hex env w AuthResolved)
     = pushed w ++ [pathname (from st)].
Proof.
  intros Hstate Hmissing Hout Hpending. split.
  - unfold render. rewrite Hout, Hstate, Hmissing.
    eexists. split; reflexivity.
  - unfold step, exec, handle, bind, when, pending_logins.
    apply Nat.ltb_lt in Hpending. rewrite Hpending.
    unfold authenticate_then, bind, when. rewrite Hstate.
    destruct (fakeAPI env); reflexivity.
Qed.

(** The test [pathname in routes(t)] also passes for the names that every
    object inherits: a recorded path that is not listed in the routes but
    is such a name, like ["toString"], gets the notice all the same, with
    the inherited member where the page title would be. *)
Theorem inherited_name_gets_the_notice
    (w : World) (st : LocationState) :
  location_state env = Some st ->
  lookup (pathname (from st)) (routes env) = None ->
  inherits (pathname (from st)) = true ->
  loggedIn w = false ->
  exists f,
    render env w = LoginForm f
    /\ transfer_notice f = Some (Inherited (pathname (from st))).
Proof.
  intros Hstate Hunlisted Hinherited Hout.
  unfold render, has_property, get_property.
  rewrite Hout, Hstate, Hunlisted, Hinherited.
  eexists. split; reflexivity.
Qed.

(** The cookie warning follows the sample taken at mount: on a page mounted
    fresh, whatever happens afterwards, [render] is either the redirect to
    ["/"] or a form whose cookie warning is shown exactly when
    [navigator.cookieEnabled] was false at mount. *)
Theorem cookie_warning_follows_mount_sample
    (events : list event) (navigator_cookieEnabled logged_in : bool) :
  match
    render env
      (run sha256_hex env events
           (mount navigator_cookieEnabled (initial_world logged_in)))
  with
  | Redirect to => to = "/"
  | LoginForm f => cookie_warning f = negb navigator_cookieEnabled
  end.
Proof.
  unfold render.
  destruct (loggedIn (run sha256_hex env events
                          (mount navigator_cookieEnabled
                                 (initial_world logged_in))));
    [reflexivity|].
  cbn [cookie_warning]. rewrite run_keeps_cookiesEnabled.
  destruct navigator_cookieEnabled; reflexivity.
Qed.

(** Submitting again without typing sends an empty password: a submission
    clears the draft, so a second submission right after the first, or
    after the first was rejected, sends the double digest of the empty
    string in local mode and the username with an empty password in LDAP
    mode. *)
Theorem resubmission_sends_empty_password (w : World) :
  let again :=
    if ldapAuth (state w)
    then AuthenticateLdap (username (state w)) EmptyString
    else Authenticate (sha256_hex (sha256_hex EmptyString)) in
  sent (run sha256_hex env [Submit; Submit] w)
  = sent w ++ [submitted_request sha256_hex (state w); again]
  /\ sent (run sha256_hex env [Submit; AuthRejected; Submit] w)
     = sent w ++ [submitted_request sha256_hex (state w); again].
Proof.
  cbv zeta. unfold run. cbn [fold_left].
  rewrite !step_submit, !authenticate_effect.
  unfold step, exec, handle, bind, when, pending_logins. cbn.
  unfold submitted_request. cbn.
  destruct (ldapAuth (state w)); rewrite <- !app_assoc; split; reflexivity.
Qed.

(** The answer to the probe sets the mode and keeps the drafts: when the
    pending probe resolves, the page is in LDAP mode exactly if the answer
    is the string ["ldap"], what was typed meanwhile stays in both fields,
    and nothing is sent.  When the probe fails instead, the component state
    is unchanged, so the page stays in the mode it was in. *)
Theorem probe_answer_sets_mode (w : World) (mode : string) :
  (0 < probes_pending w)%nat ->
  let w' := step sha256_hex env w (AuthModeResolved mode) in
  (ldapAuth (state w') = true <-> mode = "ldap")
  /\ (username (state w') = username (state w)
      /\ password (state w') = password (state w)
      /\ error (state w') = error (state w))
  /\ sent w' = sent w
  /\ state (step sha256_hex env w AuthModeRejected) = state w.
Proof.
  intros Hpending. cbv zeta.
  unfold step, exec, handle, bind, when, pending_probes.
  apply Nat.ltb_lt in Hpending. rewrite Hpending. cbn.
  split; [apply String.eqb_eq|]. repeat split.
Qed.

End LoginSessions.

(** ** The tree under [GlobalContextProvider] *)
Section GlobalContextProperties.
Import WithAPIData GlobalContext.

Variables E ReactNode : Type.

(** Whatever the two loaders hold (nothing yet, data or an error, in any
    of the nine combinations), [GlobalContextProvider] renders its children,
    once, inside the preferences provider inside the status provider.  A
    consumer among the children reads the status from the status loader and
    the settings from the preferences loader, neither disturbed by the
    other; a consumer outside the providers reads from each context what a
    consumer inside reads while that loader has nothing yet. *)
Theorem global_context_wraps_children
    (s : AsyncResourceState Api.ApiStatus E)
    (p : AsyncResourceState Api.ApiPreferences E) (children : ReactNode) :
  GlobalContextProvider s p children
  = StatusContext_Provider (StatusContext.StatusProvider s)
      (PreferencesContext_Provider
         (PreferencesContext.PreferencesProvider p) (Children children))
  /\ read_status (GlobalContextProvider s p children)
     = StatusContext.StatusProvider s
  /\ read_preferences (GlobalContextProvider s p children)
     = PreferencesContext.PreferencesProvider p
  /\ read_status (Children children)
     = StatusContext.StatusProvider (@Initial Api.ApiStatus E)
  /\ read_preferences (Children children)
     = PreferencesContext.PreferencesProvider (@Initial Api.ApiPreferences E).
Proof. destruct s, p; repeat split. Qed.

End GlobalContextProperties.

(** ** The session properties at sample inputs *)
Section SessionInstances.
Import Login.
Local Open Scope string_scope.
Local Open Scope list_scope.

Lemma ldap_mode_needs_ldap_answer_witness :
  ldapAuth (state Scenarios.ldap_page) = true
  /\ (ldapAuth (state Scenarios.fresh) = true
      \/ existsb answers_ldap [AuthModeResolved "ldap"] = true).
Proof.
  split; [reflexivity|].
  apply (ldap_mode_needs_ldap_answer SHA256.hexdigest Samples.direct
           [AuthModeResolved "ldap"] Scenarios.fresh).
  reflexivity.
Defined.

Lemma raw_password_needs_ldap_answer_witness :
  existsb answers_ldap Scenarios.two_attempts = false
  /\ ldapAuth (state Scenarios.fresh) = false
  /\ existsb carries_raw_password
       (sent (run SHA256.hexdigest Samples.direct Scenarios.two_attempts
                  Scenarios.fresh))
     = false.
Proof.
  split; [reflexivity|]. split; [reflexivity|].
  rewrite (raw_password_needs_ldap_answer SHA256.hexdigest Samples.direct
             Scenarios.two_attempts Scenarios.fresh eq_refl eq_refl).
  reflexivity.
Defined.

Lemma session_flag_is_never_reset_witness :
  loggedIn Scenarios.logged_in_page = true
  /\ loggedIn (run SHA256.hexdigest Samples.direct Scenarios.typing
                   Scenarios.logged_in_page) = true
  /\ render Samples.direct
       (run SHA256.hexdigest Samples.direct Scenarios.typing
            Scenarios.logged_in_page)
     = Redirect "/".
Proof.
  split; [reflexivity|].
  apply (session_flag_is_never_reset SHA256.hexdigest Samples.direct
           Scenarios.typing Scenarios.logged_in_page).
  reflexivity.
Defined.

Lemma session_flag_needs_resolved_submission_witness :
  loggedIn Scenarios.fresh = false
  /\ logins_pending Scenarios.fresh = 0
  /\ loggedIn (run SHA256.hexdigest Samples.direct Scenarios.two_attempts
                   Scenarios.fresh) = true
  /\ exists before after,
       Scenarios.two_attempts = before ++ AuthResolved :: after
       /\ In Submit before.
Proof.
  assert (Hin : loggedIn (run SHA256.hexdigest Samples.direct
                              Scenarios.two_attempts Scenarios.fresh) = true)
    by (vm_compute; reflexivity).
  split; [reflexivity|]. split; [reflexivity|]. split; [exact Hin|].
  apply (session_flag_needs_resolved_submission SHA256.hexdigest
           Samples.direct Scenarios.two_attempts Scenarios.fresh
           eq_refl eq_refl Hin).
Defined.

Lemma typing_is_local_witness :
  forallb is_typing Scenarios.typing = true
  /\ error (state (run SHA256.hexdigest Samples.direct Scenarios.typing
                       Samples.submitted))
     = error (state Samples.submitted)
  /\ sent (run SHA256.hexdigest Samples.direct Scenarios.typing
               Samples.submitted)
     = sent Samples.submitted.
Proof.
  split; [reflexivity|].
  destruct (typing_is_local SHA256.hexdigest Samples.direct Scenarios.typing
              Samples.submitted eq_refl)
    as ((Herror & _) & (Hsent & _) & _).
  split; [exact Herror | exact Hsent].
Defined.

Lemma form_shows_drafts_witness :
  loggedIn Scenarios.ldap_page = false
  /\ exists f,
       render Samples.direct
         (run SHA256.hexdigest Samples.direct
              [UsernameChange "admin"; PasswordChange "secret"]
              Scenarios.ldap_page)
       = LoginForm f
       /\ password_input f = "secret"
       /\ username_input f = Some "admin".
Proof.
  split; [reflexivity|].
  destruct (form_shows_drafts SHA256.hexdigest Samples.direct
              Scenarios.ldap_page "admin" "secret" eq_refl)
    as [(f & Hform & Hpassword & Husername & _) _].
  exists f. split; [exact Hform|]. split; [exact Hpassword|].
  exact Husername.
Defined.

Lemma transfer_notice_names_destination_witness :
  render Samples.bounced Samples.submitted
  = LoginForm (mkForm (Some (Own "Settings")) false false None EmptyString)
  /\ (0 < logins_pending Samples.submitted)%nat
  /\ get_property (destination Samples.bounced) (routes Samples.bounced)
     = Some (Own "Settings")
  /\ pushed (step SHA256.hexdigest Samples.bounced Samples.submitted
                  AuthResolved)
     = pushed Samples.submitted ++ [destination Samples.bounced].
Proof.
  assert (Hrender :
            render Samples.bounced Samples.submitted
            = LoginForm (mkForm (Some (Own "Settings")) false false None
                                EmptyString))
    by (vm_compute; reflexivity).
  assert (Hpending : (0 < logins_pending Samples.submitted)%nat)
    by (vm_compute; lia).
  split; [exact Hrender|]. split; [exact Hpending|].
  destruct (transfer_notice_names_destination SHA256.hexdigest
              Samples.bounced Samples.submitted _ (Own "Settings")
              Hrender eq_refl Hpending) as (Hpage & _ & Hpush).
  split; [exact Hpage | exact Hpush].
Defined.

Lemma probe_answer_sets_mode_witness :
  (0 < probes_pending Scenarios.fresh)%nat
  /\ (ldapAuth (state (step SHA256.hexdigest Samples.direct Scenarios.fresh
                            (AuthModeResolved "ldap"))) = true
      <-> "ldap" = "ldap").
Proof.
  assert (Hpending : (0 < probes_pending Scenarios.fresh)%nat)
    by (vm_compute; lia).
  split; [exact Hpending|].
  destruct (probe_answer_sets_mode SHA256.hexdigest Samples.direct
              Scenarios.fresh "ldap" Hpending) as [Hmode _].
  exact Hmode.
Defined.

Lemma unlisted_destination_is_still_pushed_witness :
  location_state Scenarios.unlisted
  = Some (mkLocationState (mkLocation "/nowhere"))
  /\ has_property "/nowhere" (routes Scenarios.unlisted) = false
  /\ loggedIn Samples.submitted = false
  /\ (0 < logins_pending Samples.submitted)%nat
  /\ pushed (step SHA256.hexdigest Scenarios.unlisted Samples.submitted
                  AuthResolved)
     = pushed Samples.submitted ++ ["/nowhere"].
Proof.
  assert (Hout : loggedIn Samples.submitted = false)
    by (vm_compute; reflexivity).
  assert (Hpending : (0 < logins_pending Samples.submitted)%nat)
    by (vm_compute; lia).
  split; [reflexivity|]. split; [reflexivity|].
  split; [exact Hout|]. split; [exact Hpending|].
  destruct (unlisted_destination_is_still_pushed SHA256.hexdigest
              Scenarios.unlisted Samples.submitted
              (mkLocationState (mkLocation "/nowhere"))
              eq_refl eq_refl Hout Hpending) as [_ Hpush].
  exact Hpush.
Defined.

Lemma inherited_name_gets_the_notice_witness :
  location_state Scenarios.inherited_path
  = Some (mkLocationState (mkLocation "toString"))
  /\ lookup "toString" (routes Scenarios.inherited_path) = None
  /\ inherits "toString" = true
  /\ loggedIn Scenarios.fresh = false
  /\ exists f,
       render Scenarios.inherited_path Scenarios.fresh = LoginForm f
       /\ transfer_notice f = Some (Inherited "toString").
Proof.
  split; [reflexivity|]. split; [reflexivity|].
  split; [reflexivity|]. split; [reflexivity|].
  apply (inherited_name_gets_the_notice
           Scenarios.inherited_path Scenarios.fresh
           (mkLocationState (mkLocation "toString"))
           eq_refl eq_refl eq_refl eq_refl).
Defined.

End SessionInstances.
